(** * summa_plot.spatial: spatial and Hovmuller plotting helpers

    A shallow embedding of [src/summa_plot/spatial.py].  The four functions
    of the module ([add_map_features], [gen_patches], [spatial],
    [hovmuller]) are transcribed statement by statement.  The geometry,
    cartography, array and rendering libraries the module calls are not part
    of the repository: their operations are section variables, and every
    theorem holds for whatever they compute. *)

From Stdlib Require Import List String ZArith QArith Bool Floats Lia.
Import ListNotations.

Set Warnings "-inexact-float".
Local Open Scope nat_scope.
Local Open Scope string_scope.
Local Open Scope list_scope.

(** [length] is the length of a list throughout. *)
Local Abbreviation length := Datatypes.length.

(** ** Python runtime *)

(** The exceptions the module can raise.  [Exception] is the builtin class
    the source raises with a message; [AttributeError], [KeyError],
    [IndexError] and [TypeError] come from the interpreter itself. *)
Inductive exn : Type :=
| AttributeError (msg : string)
| KeyError (key : option string)
| IndexError (msg : string)
| TypeError (msg : string)
| Exception (msg : string).

(** A keyword argument with a default: [None] when the caller leaves it
    out. *)
Definition kwarg {A : Type} (given : option A) (default : A) : A :=
  match given with
  | Some a => a
  | None => default
  end.

(** [zip] stops at the end of the shorter sequence. *)
Fixpoint zip {A B : Type} (xs : list A) (ys : list B) : list (A * B) :=
  match xs, ys with
  | x :: xs', y :: ys' => (x, y) :: zip xs' ys'
  | _, _ => []
  end.

(** [x in l] for a string [x] and a list of strings [l]. *)
Definition py_in (x : string) (l : list string) : bool :=
  existsb (String.eqb x) l.

Section Spatial.

(** ** External collaborators *)

(** A vertex of a ring, and an element of [data_array.values]. *)
Variables coord value : Type.

(** *** shapely *)

Record shapely_Polygon : Type := mk_shapely_Polygon {
  exterior : list coord;
  interiors : list (list coord)
}.

(** The two kinds of shape a geometry table holds; the source tells them
    apart with [isinstance(shp, shapely.geometry.MultiPolygon)]. *)
Inductive Geometry : Type :=
| SinglePolygon (p : shapely_Polygon)
| MultiPolygon (geoms : list shapely_Polygon).

(** [p.simplify(tolerance)], shapely's own algorithm.  The tolerance is a
    Python number (the default is the integer 500), embedded in [Q]. *)
Variable simplify : shapely_Polygon -> Q -> shapely_Polygon.

(** *** numpy *)

Definition np_asarray (ring : list coord) : list coord := ring.
Definition np_array (vals : list value) : list value := vals.

(** *** xarray and geopandas: the parts [gen_patches] reads *)

Record DataArray : Type := mk_DataArray {
  dims : list string;
  values : list value
}.

Variable crs_params : Type.

Record GeoDataFrame : Type := mk_GeoDataFrame {
  geometry : list Geometry;
  crs : option crs_params
}.

(** *** matplotlib patches *)

(** [matplotlib.patches.Polygon(xy)]. *)
Record Polygon : Type := mk_Polygon { xy : list coord }.

Record PatchCollection : Type := mk_PatchCollection {
  pc_patches : list Polygon;
  pc_linewidth : float;
  pc_edgecolor : option string;
  pc_alpha : float;
  pc_array : option (list value)
}.

Definition set_array (pc : PatchCollection) (A : list value)
  : PatchCollection :=
  {| pc_patches := pc_patches pc;
     pc_linewidth := pc_linewidth pc;
     pc_edgecolor := pc_edgecolor pc;
     pc_alpha := pc_alpha pc;
     pc_array := Some A |}.

(** ** gen_patches *)

(** One pass of the inner loop body, lines 48-50 and 52-54: append the
    patch, then the value. *)
Definition append_patch (simplify_level : Q) (val : value)
    (acc : list value * list Polygon) (shp : shapely_Polygon)
  : list value * list Polygon :=
  let '(vals, patches) := acc in
  let patches :=
    patches ++ [mk_Polygon (np_asarray (exterior (simplify shp simplify_level)))] in
  let vals := vals ++ [val] in
  (vals, patches).

(** The body of the outer [for] loop, lines 46-54. *)
Definition gen_patches_step (simplify_level : Q)
    (acc : list value * list Polygon) (row : value * Geometry)
  : list value * list Polygon :=
  let '(val, shp) := row in
  match shp with
  | MultiPolygon subs => fold_left (append_patch simplify_level val) subs acc
  | SinglePolygon p => append_patch simplify_level val acc p
  end.

Definition gen_patches (data_array : DataArray) (geodf : GeoDataFrame)
    (simplify_level : option Q) : PatchCollection :=
  let simplify_level := kwarg simplify_level 500%Q in
  let '(vals, patches) :=
    fold_left (gen_patches_step simplify_level)
      (zip (values data_array) (geometry geodf)) ([], []) in
  let patches := mk_PatchCollection patches 0%float None 1.0%float None in
  set_array patches (np_array vals).

(** ** The rendering state *)

(** Figures and axes are objects the plotting library owns; the module only
    holds references to them.  A reference is a [handle], and the state
    [pyplot] records, in order, every call the module makes on the
    library. *)
Definition handle : Type := nat.

(** *** cartopy *)

Variable projection : Type.
(** [proj.proj4_params]. *)
Variable proj4_params : projection -> crs_params.
(** The value of [ccrs.Mercator()], the default of [spatial]'s [proj]. *)
Variable ccrs_Mercator : projection.
(** [geodf.to_crs(crs=...)]. *)
Variable to_crs : GeoDataFrame -> crs_params -> GeoDataFrame.

Record NaturalEarthFeature : Type := mk_NaturalEarthFeature {
  nef_category : string;
  nef_name : string;
  nef_scale : string;
  nef_facecolor : string
}.

(** The keyword arguments the module passes to [ax.add_feature]. *)
Record feature_kwargs : Type := mk_feature_kwargs {
  kw_edgecolor : option string;
  kw_facecolor : option string;
  kw_alpha : option float;
  kw_zorder : option Z;
  kw_linewidth : option Z
}.

(** *** xarray: grouping (used by [hovmuller] only) *)

Variable GroupBy : Type.
Variable MaskedArray : Type.
(** [da.groupby(key)], [grouped.apply(f)], [da[key]], [da.min()] and
    [da.max()]. *)
Variable groupby : DataArray -> string -> GroupBy.
Variable gb_apply : GroupBy -> (DataArray -> DataArray) -> DataArray.
Variable da_getitem : DataArray -> string -> DataArray.
Variables da_min da_max : DataArray -> DataArray.
(** The reductions of a grouped array: [x.mean()], [x.max()], [x.min()],
    [x.median()], [x.std()]. *)
Variables gb_mean gb_max gb_min gb_median gb_std : GroupBy -> DataArray.
(** [np.ma.masked_invalid]. *)
Variable masked_invalid : list value -> MaskedArray.

Inductive call : Type :=
| call_subplots (nrows ncols : Z) (subplot_kw : option projection)
    (fig ax : handle)
| call_add_collection (ax : handle) (collection : PatchCollection)
| call_add_feature (ax : handle) (feature : NaturalEarthFeature)
    (kwargs : feature_kwargs)
| call_autoscale_view (ax : handle)
| call_pcolormesh (ax : handle) (x y : DataArray) (z : MaskedArray)
    (cmap : string)
| call_axis (ax : handle) (limits : list DataArray).

Record pyplot : Type := mk_pyplot {
  next_handle : handle;
  calls : list call
}.

(** A computation either raises or returns, and leaves a rendering state
    behind in both cases. *)
Definition M (A : Type) : Type := pyplot -> (exn + A) * pyplot.

Definition ret {A : Type} (a : A) : M A := fun s => (inr a, s).

Definition raise {A : Type} (e : exn) : M A := fun s => (inl e, s).

Definition bind {A B : Type} (c : M A) (k : A -> M B) : M B :=
  fun s =>
    match c s with
    | (inl e, s') => (inl e, s')
    | (inr a, s') => k a s'
    end.

Notation "x <- c ;; k" := (bind c (fun x => k))
  (at level 61, c at next level, right associativity).
Notation "c ;;; k" := (bind c (fun _ => k))
  (at level 61, right associativity).

Definition record_call (c : call) : M unit :=
  fun s => (inr tt, {| next_handle := next_handle s;
                      calls := calls s ++ [c] |}).

(** [plt.subplots(nrows, ncols, subplot_kw=dict(projection=...))]: a new
    figure with one new axis. *)
Definition subplots (nrows ncols : Z) (subplot_kw : option projection)
  : M (handle * handle) :=
  fun s =>
    let fig := next_handle s in
    let ax := S fig in
    (inr (fig, ax),
     {| next_handle := S ax;
        calls := calls s ++ [call_subplots nrows ncols subplot_kw fig ax] |}).

Definition add_feature (ax : handle) (feature : NaturalEarthFeature)
    (kwargs : feature_kwargs) : M unit :=
  record_call (call_add_feature ax feature kwargs).

Definition add_collection (ax : handle) (collection : PatchCollection)
  : M unit :=
  record_call (call_add_collection ax collection).

Definition autoscale_view (ax : handle) : M unit :=
  record_call (call_autoscale_view ax).

Definition pcolormesh (ax : handle) (x y : DataArray) (z : MaskedArray)
    (cmap : string) : M unit :=
  record_call (call_pcolormesh ax x y z cmap).

Definition axis (ax : handle) (limits : list DataArray) : M unit :=
  record_call (call_axis ax limits).

(** ** add_map_features *)

Definition add_map_features (ax : handle)
    (states_provinces country_borders land ocean lake : option bool)
  : M unit :=
  let states_provinces := kwarg states_provinces true in
  let country_borders := kwarg country_borders true in
  let land := kwarg land true in
  let ocean := kwarg ocean true in
  let lake := kwarg lake false in
  (if states_provinces then
     let states_provinces :=
       mk_NaturalEarthFeature "cultural" "admin_1_states_provinces_lines"
         "50m" "none" in
     add_feature ax states_provinces
       {| kw_edgecolor := Some "black"; kw_facecolor := None;
          kw_alpha := Some 0.8%float; kw_zorder := Some 2%Z;
          kw_linewidth := None |}
   else ret tt) ;;;
  (if country_borders then
     let ctry_borders :=
       mk_NaturalEarthFeature "cultural" "admin_0_boundary_lines_land"
         "50m" "none" in
     add_feature ax ctry_borders
       {| kw_edgecolor := Some "black"; kw_facecolor := None;
          kw_alpha := None; kw_zorder := Some 2%Z;
          kw_linewidth := Some 1%Z |}
   else ret tt) ;;;
  (if land then
     let land := mk_NaturalEarthFeature "physical" "land" "50m" "gray" in
     add_feature ax land
       {| kw_edgecolor := None; kw_facecolor := Some "lightgray";
          kw_alpha := None; kw_zorder := Some 0%Z;
          kw_linewidth := None |}
   else ret tt) ;;;
  (if ocean then
     let ocean := mk_NaturalEarthFeature "physical" "ocean" "50m" "blue" in
     add_feature ax ocean
       {| kw_edgecolor := None; kw_facecolor := Some "lightblue";
          kw_alpha := None; kw_zorder := Some 1%Z;
          kw_linewidth := None |}
   else ret tt) ;;;
  (if lake then
     let rivers_lakes :=
       mk_NaturalEarthFeature "physical" "rivers_lake_centerlines"
         "50m" "none" in
     add_feature ax rivers_lakes
       {| kw_edgecolor := None; kw_facecolor := Some "lightblue";
          kw_alpha := None; kw_zorder := Some 2%Z;
          kw_linewidth := None |}
   else ret tt) ;;;
  ret tt.

(** ** spatial *)

Definition spatial (data_array : DataArray) (geodf : GeoDataFrame)
    (simplify_level : option Q) (proj : option projection)
  : M (handle * handle) :=
  let simplify_level := kwarg simplify_level 500%Q in
  let proj := kwarg proj ccrs_Mercator in
  let geodf_crs := to_crs geodf (proj4_params proj) in
  let patches := gen_patches data_array geodf_crs (Some simplify_level) in
  fig_ax <- subplots 1 1 (Some proj) ;;
  let '(fig, ax) := fig_ax in
  add_collection ax patches ;;;
  add_map_features ax None None None None None ;;;
  autoscale_view ax ;;;
  ret (fig, ax).

(** ** hovmuller *)

(** The two kinds of container the function builds: [time_groups] is a
    list literal, [aggregation_methods] a dict literal whose values are
    the reducing lambdas. *)
Inductive pyobj : Type :=
| py_list (items : list string)
| py_dict (items : list (string * (GroupBy -> DataArray))).

(** [o.keys()]: a dict has the method, a list has no such attribute. *)
Definition keys (o : pyobj) : M (list string) :=
  match o with
  | py_dict items => ret (map fst items)
  | py_list _ => raise (AttributeError "'list' object has no attribute 'keys'")
  end.

(** [d[k]] on a dict. *)
Fixpoint dict_get {V : Type} (items : list (string * V)) (k : string)
  : option V :=
  match items with
  | [] => None
  | (k', v) :: rest => if String.eqb k k' then Some v else dict_get rest k
  end.

Definition getitem (o : pyobj) (k : option string)
  : M (GroupBy -> DataArray) :=
  match o, k with
  | py_dict items, Some key =>
      match dict_get items key with
      | Some v => ret v
      | None => raise (KeyError k)
      end
  | py_dict _, None => raise (KeyError None)
  | py_list _, _ =>
      raise (TypeError "list indices must be integers or slices, not str")
  end.

(** Truth value of [how], which is [None] or a string. *)
Definition truthy (how : option string) : bool :=
  match how with
  | None => false
  | Some s => negb (String.eqb s "")
  end.

(** [how in ks] for [how] that is [None] or a string. *)
Definition how_in (how : option string) (ks : list string) : bool :=
  match how with
  | None => false
  | Some s => py_in s ks
  end.

(** [l[i]] on a list. *)
Definition list_index (l : list string) (i : nat) : M string :=
  match nth_error l i with
  | Some x => ret x
  | None => raise (IndexError "list index out of range")
  end.

Definition hovmuller (data_array : DataArray) (xdim ydim : string)
    (how : option (option string)) (cmap : option string)
  : M (handle * handle) :=
  let how := kwarg how (Some "mean") in
  let cmap := kwarg cmap "viridis" in
  (* Check if dimensions are valid *)
  let time_groups :=
    py_list ["year"; "month"; "day"; "hour";
             "minute"; "second"; "dayofyear";
             "week"; "dayofweek"; "weekday"; "quarter"] in
  let x_da_dim := py_in xdim (dims data_array) in
  ks <- keys time_groups ;;
  let x_tg_dim := py_in xdim ks in
  xdim <-
    (if x_tg_dim then
       let xdim := String.append "time." xdim in
       if negb (truthy how) then
         raise (Exception "Must specify aggregation method for x dimension")
       else ret xdim
     else if negb x_da_dim then
       raise (Exception "x dimension not valid")
     else ret xdim) ;;
  let y_da_dim := py_in ydim (dims data_array) in
  ks <- keys time_groups ;;
  let y_tg_dim := py_in ydim ks in
  ydim <-
    (if y_tg_dim then
       let ydim := String.append "time." ydim in
       if negb (truthy how) then
         raise (Exception "Must specify aggregation method for y dimension")
       else ret ydim
     else if negb y_da_dim then
       raise (Exception "y dimension not valid")
     else ret ydim) ;;
  (* Make sure the aggregation method is valid *)
  let aggregation_methods :=
    py_dict [("mean", fun x => gb_mean x);
             ("max", fun x => gb_max x);
             ("min", fun x => gb_min x);
             ("median", fun x => gb_median x);
             ("std", fun x => gb_std x)] in
  ks <- keys aggregation_methods ;;
  (if negb (how_in how ks) then
     raise (Exception "Invalid time aggregation method given")
   else ret tt) ;;;
  (* Do the group statements *)
  aggregate <- getitem aggregation_methods how ;;
  let grouped1 := groupby data_array ydim in
  let grouped2 := gb_apply grouped1 (fun x => aggregate (groupby x xdim)) in
  d1 <- list_index (dims grouped2) 1 ;;
  let x := da_getitem grouped2 d1 in
  d0 <- list_index (dims grouped2) 0 ;;
  let y := da_getitem grouped2 d0 in
  let z := masked_invalid (values grouped2) in
  fig_ax <- subplots 1 1 None ;;
  let '(fig, ax) := fig_ax in
  pcolormesh ax x y z cmap ;;;
  axis ax [da_min x; da_max x; da_min y; da_max y] ;;;
  ret (fig, ax).

(** * Properties of gen_patches *)

(** The single polygons a geometry stands for, in iteration order. *)
Definition parts (shp : Geometry) : list shapely_Polygon :=
  match shp with
  | SinglePolygon p => [p]
  | MultiPolygon subs => subs
  end.

(** The patch a single polygon is expected to become. *)
Definition patch_of (simplify_level : Q) (p : shapely_Polygon) : Polygon :=
  mk_Polygon (exterior (simplify p simplify_level)).

(** The patches and the values one input row is expected to contribute. *)
Definition row_patches (simplify_level : Q) (row : value * Geometry)
  : list Polygon :=
  map (patch_of simplify_level) (parts (snd row)).

Definition row_vals (row : value * Geometry) : list value :=
  repeat (fst row) (length (parts (snd row))).

Lemma zip_app {A B : Type} (xs1 xs2 : list A) (ys1 ys2 : list B) :
  length xs1 = length ys1 ->
  zip (xs1 ++ xs2) (ys1 ++ ys2) = zip xs1 ys1 ++ zip xs2 ys2.
Proof.
  revert ys1.
  induction xs1 as [|x xs1 IH]; intros [|y ys1] Hlen;
    simpl in *; try discriminate; auto.
  f_equal. apply IH. now injection Hlen.
Qed.

Lemma zip_map_r {A B C : Type} (f : B -> C) (xs : list A) (ys : list B) :
  zip xs (map f ys) = map (fun r => (fst r, f (snd r))) (zip xs ys).
Proof.
  revert ys.
  induction xs as [|x xs IH]; intros [|y ys]; simpl; auto.
  now rewrite IH.
Qed.

Lemma zip_fst_same_length {A B : Type} (xs : list A) (ys : list B) :
  length xs = length ys -> map fst (zip xs ys) = xs.
Proof.
  revert ys.
  induction xs as [|x xs IH]; intros [|y ys] Hlen;
    simpl in *; try discriminate; auto.
  f_equal. apply IH. now injection Hlen.
Qed.

Lemma zip_snd_same_length {A B : Type} (xs : list A) (ys : list B) :
  length xs = length ys -> map snd (zip xs ys) = ys.
Proof.
  revert ys.
  induction xs as [|x xs IH]; intros [|y ys] Hlen;
    simpl in *; try discriminate; auto.
  f_equal. apply IH. now injection Hlen.
Qed.

(** The inner loop appends one patch and one copy of the value per part. *)
Lemma inner_loop_appends (L : Q) (val : value) (subs : list shapely_Polygon) :
  forall vals patches,
    fold_left (append_patch L val) subs (vals, patches)
    = (vals ++ repeat val (length subs), patches ++ map (patch_of L) subs).
Proof.
  induction subs as [|sub subs IH]; intros vals patches; simpl.
  - now rewrite !app_nil_r.
  - rewrite IH. unfold patch_of, np_asarray.
    now rewrite <- !app_assoc.
Qed.

Lemma gen_patches_step_appends (L : Q) (row : value * Geometry) :
  forall vals patches,
    gen_patches_step L (vals, patches) row
    = (vals ++ row_vals row, patches ++ row_patches L row).
Proof.
  intros vals patches. destruct row as [val [p | subs]]; simpl.
  - reflexivity.
  - apply inner_loop_appends.
Qed.

(** The outer loop, from any intermediate pair of accumulators. *)
Lemma outer_loop_appends (L : Q) (rows : list (value * Geometry)) :
  forall vals patches,
    fold_left (gen_patches_step L) rows (vals, patches)
    = (vals ++ flat_map row_vals rows,
       patches ++ flat_map (row_patches L) rows).
Proof.
  induction rows as [|row rows IH]; intros vals patches; simpl.
  - now rewrite !app_nil_r.
  - rewrite gen_patches_step_appends, IH.
    now rewrite <- !app_assoc.
Qed.

(** What [gen_patches] returns, in closed form. *)
Lemma gen_patches_closed_form (data_array : DataArray) (geodf : GeoDataFrame)
    (simplify_level : option Q) :
  gen_patches data_array geodf simplify_level
  = {| pc_patches :=
         flat_map (row_patches (kwarg simplify_level 500%Q))
           (zip (values data_array) (geometry geodf));
       pc_linewidth := 0%float;
       pc_edgecolor := None;
       pc_alpha := 1%float;
       pc_array :=
         Some (flat_map row_vals (zip (values data_array) (geometry geodf))) |}.
Proof.
  unfold gen_patches.
  now rewrite outer_loop_appends.
Qed.

Lemma flat_map_singletons {A B : Type} (f : A -> B) (l : list A) :
  flat_map (fun a => [f a]) l = map f l.
Proof.
  induction l as [|a l IH]; simpl; congruence.
Qed.

(** C1. When the value sequence and the geometry table have the same
    length and every geometry is a single polygon, the collection holds one
    shape per input row, the i-th shape is the patch of the i-th row's
    polygon, and the value array is the input value sequence. *)
Theorem gen_patches_single_polygons
    (data_array : DataArray) (geodf : GeoDataFrame)
    (simplify_level : option Q) (ps : list shapely_Polygon) :
  geometry geodf = map SinglePolygon ps ->
  length (values data_array) = length (geometry geodf) ->
  let pc := gen_patches data_array geodf simplify_level in
  length (pc_patches pc) = length (geometry geodf)
  /\ pc_patches pc = map (patch_of (kwarg simplify_level 500%Q)) ps
  /\ (forall i, nth_error (pc_patches pc) i
                = option_map (patch_of (kwarg simplify_level 500%Q))
                    (nth_error ps i))
  /\ pc_array pc = Some (values data_array).
Proof.
  intros Hgeo Hlen pc.
  assert (Hp : pc_patches pc = map (patch_of (kwarg simplify_level 500%Q)) ps).
  { subst pc. rewrite gen_patches_closed_form. simpl.
    rewrite Hgeo, zip_map_r, flat_map_concat_map, map_map.
    rewrite <- flat_map_concat_map.
    unfold row_patches. simpl.
    rewrite (flat_map_singletons
               (fun r => patch_of (kwarg simplify_level 500%Q) (snd r))).
    rewrite <- (map_map snd), zip_snd_same_length; auto.
    rewrite Hlen, Hgeo. now rewrite length_map. }
  repeat split.
  - rewrite Hp, Hgeo. now rewrite !length_map.
  - exact Hp.
  - intro i. rewrite Hp. apply nth_error_map.
  - subst pc. rewrite gen_patches_closed_form. simpl. f_equal.
    rewrite Hgeo, zip_map_r, flat_map_concat_map, map_map.
    rewrite <- flat_map_concat_map.
    unfold row_vals. simpl.
    rewrite (flat_map_singletons (fun r : value * shapely_Polygon => fst r)).
    apply zip_fst_same_length.
    rewrite Hlen, Hgeo. now rewrite length_map.
Qed.

(** C2. A record whose geometry is a multi-part polygon with k parts
    contributes exactly k shapes, the patches of its parts in order, placed
    after the shapes of the records before it and before the shapes of the
    records after it; the value array carries the record's value at exactly
    those k positions. *)
Theorem gen_patches_multipolygon_in_place
    (ds : list string) (c : option crs_params)
    (vs1 vs2 : list value) (val : value)
    (gs1 gs2 : list Geometry) (subs : list shapely_Polygon)
    (simplify_level : option Q) :
  length vs1 = length gs1 ->
  let before :=
    gen_patches (mk_DataArray ds vs1) (mk_GeoDataFrame gs1 c) simplify_level in
  let after :=
    gen_patches (mk_DataArray ds vs2) (mk_GeoDataFrame gs2 c) simplify_level in
  let pc :=
    gen_patches (mk_DataArray ds (vs1 ++ val :: vs2))
      (mk_GeoDataFrame (gs1 ++ MultiPolygon subs :: gs2) c) simplify_level in
  pc_patches pc
  = pc_patches before
    ++ map (patch_of (kwarg simplify_level 500%Q)) subs
    ++ pc_patches after
  /\ length (map (patch_of (kwarg simplify_level 500%Q)) subs) = length subs
  /\ exists a1 a2,
       pc_array before = Some a1
       /\ pc_array after = Some a2
       /\ length a1 = length (pc_patches before)
       /\ pc_array pc = Some (a1 ++ repeat val (length subs) ++ a2).
Proof.
  intros Hlen before after pc. subst before after pc.
  rewrite !gen_patches_closed_form. simpl.
  rewrite (zip_app vs1 (val :: vs2) gs1 (MultiPolygon subs :: gs2) Hlen).
  simpl. rewrite !flat_map_app. simpl.
  split; [reflexivity | split; [apply length_map |]].
  eexists; eexists. repeat split.
  induction (zip vs1 gs1) as [|row rows IH]; simpl; auto.
  rewrite !length_app, IH. f_equal.
  unfold row_vals, row_patches. now rewrite repeat_length, length_map.
Qed.

(** * Properties of add_map_features *)

(** Observers of a recorded call: is it a layer added to [ax], and under
    which feature name and z-order. *)
Definition is_layer_on (ax : handle) (c : call) : bool :=
  match c with
  | call_add_feature ax' _ _ => Nat.eqb ax ax'
  | _ => false
  end.

Definition layer_name (c : call) : option string :=
  match c with
  | call_add_feature _ feature _ => Some (nef_name feature)
  | _ => None
  end.

Definition layer_zorder (c : call) : option Z :=
  match c with
  | call_add_feature _ _ kwargs => kw_zorder kwargs
  | _ => None
  end.

Definition layer_count (ax : handle) (s : pyplot) : nat :=
  length (filter (is_layer_on ax) (calls s)).

Definition b2n (b : bool) : nat := if b then 1 else 0.

(** The rendering state after [cs] more calls. *)
Definition after_calls (s : pyplot) (cs : list call) : pyplot :=
  {| next_handle := next_handle s; calls := calls s ++ cs |}.

Lemma after_calls_nil (s : pyplot) : after_calls s [] = s.
Proof.
  destruct s as [n cs]. unfold after_calls. simpl. now rewrite app_nil_r.
Qed.

Lemma after_calls_app (s : pyplot) (cs1 cs2 : list call) :
  after_calls (after_calls s cs1) cs2 = after_calls s (cs1 ++ cs2).
Proof.
  unfold after_calls. simpl. now rewrite app_assoc.
Qed.

Lemma record_call_run (c : call) (s : pyplot) :
  record_call c s = (inr tt, after_calls s [c]).
Proof. reflexivity. Qed.

(** An optional step of the decorator: one recorded call when the flag is
    set, nothing otherwise. *)
Lemma optional_layer_run (flag : bool) (ax : handle)
    (feature : NaturalEarthFeature) (kwargs : feature_kwargs) (s : pyplot) :
  (if flag then add_feature ax feature kwargs else ret tt) s
  = (inr tt,
     after_calls s (if flag then [call_add_feature ax feature kwargs] else [])).
Proof.
  destruct flag.
  - apply record_call_run.
  - unfold ret. now rewrite after_calls_nil.
Qed.

Lemma bind_run_ok {A B : Type} (c : M A) (k : A -> M B) (s s' : pyplot)
    (a : A) :
  c s = (inr a, s') -> bind c k s = k a s'.
Proof.
  intro H. unfold bind. now rewrite H.
Qed.

Lemma bind_run_raise {A B : Type} (c : M A) (k : A -> M B) (s s' : pyplot)
    (e : exn) :
  c s = (inl e, s') -> bind c k s = (inl e, s').
Proof.
  intro H. unfold bind. now rewrite H.
Qed.

(** The calls the decorator records, for given values of its five flags. *)
Definition layers_for (ax : handle)
    (states_provinces country_borders land ocean lake : bool) : list call :=
  (if states_provinces then
     [call_add_feature ax
        (mk_NaturalEarthFeature "cultural" "admin_1_states_provinces_lines"
           "50m" "none")
        (mk_feature_kwargs (Some "black") None (Some 0.8%float) (Some 2%Z)
           None)]
   else [])
  ++ (if country_borders then
        [call_add_feature ax
           (mk_NaturalEarthFeature "cultural" "admin_0_boundary_lines_land"
              "50m" "none")
           (mk_feature_kwargs (Some "black") None None (Some 2%Z)
              (Some 1%Z))]
      else [])
  ++ (if land then
        [call_add_feature ax
           (mk_NaturalEarthFeature "physical" "land" "50m" "gray")
           (mk_feature_kwargs None (Some "lightgray") None (Some 0%Z) None)]
      else [])
  ++ (if ocean then
        [call_add_feature ax
           (mk_NaturalEarthFeature "physical" "ocean" "50m" "blue")
           (mk_feature_kwargs None (Some "lightblue") None (Some 1%Z) None)]
      else [])
  ++ (if lake then
        [call_add_feature ax
           (mk_NaturalEarthFeature "physical" "rivers_lake_centerlines"
              "50m" "none")
           (mk_feature_kwargs None (Some "lightblue") None (Some 2%Z) None)]
      else []).

Lemma add_map_features_run (ax : handle)
    (states_provinces country_borders land ocean lake : option bool)
    (s : pyplot) :
  add_map_features ax states_provinces country_borders land ocean lake s
  = (inr tt,
     after_calls s
       (layers_for ax (kwarg states_provinces true)
          (kwarg country_borders true) (kwarg land true) (kwarg ocean true)
          (kwarg lake false))).
Proof.
  unfold add_map_features, layers_for.
  repeat (erewrite bind_run_ok; [| apply optional_layer_run]).
  unfold ret. now rewrite !after_calls_app.
Qed.

Lemma layers_for_all_on (ax : handle) (sp cb l o lk : bool) :
  filter (is_layer_on ax) (layers_for ax sp cb l o lk)
  = layers_for ax sp cb l o lk.
Proof.
  unfold layers_for.
  destruct sp, cb, l, o, lk; simpl; rewrite ?Nat.eqb_refl; reflexivity.
Qed.

(** C8. With explicit flags, the decorator returns [None], creates no
    figure or axis, and records one layer on [ax] per true flag and nothing
    else: none at all when the five flags are false.  The layers come in the
    order states/provinces, country borders, land, ocean, lakes, with
    z-order 2 for both border layers, 0 for land, 1 for ocean (and 2 for the
    lake layer). *)
Theorem add_map_features_layers (ax : handle) (sp cb l o lk : bool)
    (s : pyplot) :
  fst (add_map_features ax (Some sp) (Some cb) (Some l) (Some o) (Some lk) s)
  = inr tt
  /\ exists added : list call,
      snd (add_map_features ax (Some sp) (Some cb) (Some l) (Some o)
             (Some lk) s)
      = after_calls s added
      /\ forallb (is_layer_on ax) added = true
      /\ length added = b2n sp + b2n cb + b2n l + b2n o + b2n lk
      /\ layer_count ax
           (snd (add_map_features ax (Some sp) (Some cb) (Some l) (Some o)
                   (Some lk) s))
         = layer_count ax s + b2n sp + b2n cb + b2n l + b2n o + b2n lk
      /\ map (fun c => (layer_name c, layer_zorder c)) added
         = (if sp then [(Some "admin_1_states_provinces_lines", Some 2%Z)]
            else [])
           ++ (if cb then [(Some "admin_0_boundary_lines_land", Some 2%Z)]
               else [])
           ++ (if l then [(Some "land", Some 0%Z)] else [])
           ++ (if o then [(Some "ocean", Some 1%Z)] else [])
           ++ (if lk then [(Some "rivers_lake_centerlines", Some 2%Z)]
               else []).
Proof.
  rewrite add_map_features_run. simpl.
  split; [reflexivity |].
  exists (layers_for ax sp cb l o lk).
  split; [reflexivity |].
  split.
  { rewrite forallb_forall. intros c Hc.
    rewrite <- layers_for_all_on in Hc.
    apply filter_In in Hc. tauto. }
  split.
  { destruct sp, cb, l, o, lk; reflexivity. }
  split.
  { unfold layer_count. simpl.
    rewrite filter_app, length_app, layers_for_all_on.
    destruct sp, cb, l, o, lk; simpl; lia. }
  destruct sp, cb, l, o, lk; reflexivity.
Qed.

(** With the five flags off the axis is left as it was. *)
Corollary add_map_features_all_off (ax : handle) (s : pyplot) :
  add_map_features ax (Some false) (Some false) (Some false) (Some false)
    (Some false) s
  = (inr tt, s).
Proof.
  rewrite add_map_features_run. simpl. now rewrite after_calls_nil.
Qed.

(** Called with the axis alone, the decorator draws both border layers,
    land and ocean, and no lakes. *)
Corollary add_map_features_defaults (ax : handle) (s : pyplot) :
  add_map_features ax None None None None None s
  = add_map_features ax (Some true) (Some true) (Some true) (Some true)
      (Some false) s.
Proof.
  now rewrite !add_map_features_run.
Qed.

(** * Properties of spatial *)

(** C9. [spatial] returns a fresh figure and a fresh axis, and records
    exactly: one [subplots] call for a 1x1 grid in the target projection,
    the attachment of the collection [gen_patches] builds from the array
    and the table reprojected to the projection's parameters, the four
    default background layers (both border layers, land, ocean; no lakes),
    and one [autoscale_view].  Left out, the projection is Mercator. *)
Theorem spatial_call_sequence (data_array : DataArray) (geodf : GeoDataFrame)
    (simplify_level : option Q) (proj : option projection) (s : pyplot) :
  let P := kwarg proj ccrs_Mercator in
  let fig := next_handle s in
  let ax := S (next_handle s) in
  spatial data_array geodf simplify_level proj s
  = (inr (fig, ax),
     {| next_handle := S ax;
        calls :=
          calls s
          ++ [call_subplots 1 1 (Some P) fig ax;
              call_add_collection ax
                (gen_patches data_array (to_crs geodf (proj4_params P))
                   (Some (kwarg simplify_level 500%Q)));
              call_add_feature ax
                (mk_NaturalEarthFeature "cultural"
                   "admin_1_states_provinces_lines" "50m" "none")
                (mk_feature_kwargs (Some "black") None (Some 0.8%float)
                   (Some 2%Z) None);
              call_add_feature ax
                (mk_NaturalEarthFeature "cultural"
                   "admin_0_boundary_lines_land" "50m" "none")
                (mk_feature_kwargs (Some "black") None None (Some 2%Z)
                   (Some 1%Z));
              call_add_feature ax
                (mk_NaturalEarthFeature "physical" "land" "50m" "gray")
                (mk_feature_kwargs None (Some "lightgray") None (Some 0%Z)
                   None);
              call_add_feature ax
                (mk_NaturalEarthFeature "physical" "ocean" "50m" "blue")
                (mk_feature_kwargs None (Some "lightblue") None (Some 1%Z)
                   None);
              call_autoscale_view ax] |})
  /\ snd (spatial data_array geodf simplify_level proj s)
     = snd ((fig_ax <- subplots 1 1 (Some P) ;;
             add_collection (snd fig_ax)
               (gen_patches data_array (to_crs geodf (proj4_params P))
                  (Some (kwarg simplify_level 500%Q))) ;;;
             add_map_features (snd fig_ax) (Some true) (Some true)
               (Some true) (Some true) (Some false) ;;;
             autoscale_view (snd fig_ax)) s)
  /\ spatial data_array geodf simplify_level None s
     = spatial data_array geodf simplify_level (Some ccrs_Mercator) s.
Proof.
  intros P fig ax.
  assert (Hspatial :
    spatial data_array geodf simplify_level proj s
    = (inr (fig, ax),
       after_calls
         (after_calls
            (after_calls
               {| next_handle := S ax;
                  calls := calls s ++ [call_subplots 1 1 (Some P) fig ax] |}
               [call_add_collection ax
                  (gen_patches data_array (to_crs geodf (proj4_params P))
                     (Some (kwarg simplify_level 500%Q)))])
            (layers_for ax true true true true false))
         [call_autoscale_view ax])).
  { unfold spatial. fold P. cbv beta zeta.
    erewrite bind_run_ok; [| reflexivity].
    cbv beta iota zeta.
    erewrite bind_run_ok; [| apply record_call_run].
    erewrite bind_run_ok; [| apply add_map_features_run].
    erewrite bind_run_ok; [| apply record_call_run].
    reflexivity. }
  split; [| split; [| reflexivity]].
  - rewrite Hspatial. unfold after_calls, layers_for. simpl.
    rewrite <- !app_assoc. reflexivity.
  - rewrite Hspatial.
    erewrite bind_run_ok; [| reflexivity].
    erewrite bind_run_ok; [| apply record_call_run].
    erewrite bind_run_ok; [| apply add_map_features_run].
    reflexivity.
Qed.

(** * Properties of hovmuller *)

(** The three validation failures the function announces, by the messages
    of lines 82-85, 92-95 and 104. *)
Inductive validation_error : Type :=
| InvalidDimension
| MissingAggregation
| InvalidAggregationMethod.

Definition validation_error_of (e : exn) : option validation_error :=
  match e with
  | Exception msg =>
      if String.eqb msg "x dimension not valid"
         || String.eqb msg "y dimension not valid"
      then Some InvalidDimension
      else if String.eqb msg "Must specify aggregation method for x dimension"
              || String.eqb msg
                   "Must specify aggregation method for y dimension"
      then Some MissingAggregation
      else if String.eqb msg "Invalid time aggregation method given"
      then Some InvalidAggregationMethod
      else None
  | _ => None
  end.

(** How a run ended: with which validation failure, if any. *)
Definition failure_kind {A : Type} (r : (exn + A) * pyplot)
  : option validation_error :=
  match fst r with
  | inl e => validation_error_of e
  | inr _ => None
  end.

(** The calendar components of line 74 and the method names of line 98. *)
Definition calendar_components : list string :=
  ["year"; "month"; "day"; "hour"; "minute"; "second"; "dayofyear";
   "week"; "dayofweek"; "weekday"; "quarter"].

Definition method_names : list string :=
  ["mean"; "max"; "min"; "median"; "std"].

Definition no_keys : exn :=
  AttributeError "'list' object has no attribute 'keys'".

Lemma keys_of_list_run (items : list string) (s : pyplot) :
  keys (py_list items) s = (inl no_keys, s).
Proof. reflexivity. Qed.

(** The first [.keys()] call of the function, line 78, is made on the list
    [time_groups]; the run ends there. *)
Lemma hovmuller_run (data_array : DataArray) (xdim ydim : string)
    (how : option (option string)) (cmap : option string) (s : pyplot) :
  hovmuller data_array xdim ydim how cmap s = (inl no_keys, s).
Proof.
  unfold hovmuller. cbv zeta.
  eapply bind_run_raise. apply keys_of_list_run.
Qed.

(** C3. Whatever the array, the selectors, the method and the colour map,
    [hovmuller] raises the [AttributeError] of [time_groups.keys()]: it
    never raises one of its own validation errors, never returns a figure,
    and asks nothing of the plotting library. *)
Theorem hovmuller_always_attribute_error (data_array : DataArray)
    (xdim ydim : string) (how : option (option string))
    (cmap : option string) (s : pyplot) :
  keys (py_list calendar_components) s = (inl no_keys, s)
  /\ hovmuller data_array xdim ydim how cmap s
     = (inl (AttributeError "'list' object has no attribute 'keys'"), s)
  /\ (forall msg : string,
        fst (hovmuller data_array xdim ydim how cmap s)
        <> inl (Exception msg))
  /\ failure_kind (hovmuller data_array xdim ydim how cmap s) = None
  /\ (forall fig_ax : handle * handle,
        fst (hovmuller data_array xdim ydim how cmap s) <> inr fig_ax)
  /\ snd (hovmuller data_array xdim ydim how cmap s) = s.
Proof.
  rewrite hovmuller_run. unfold no_keys. simpl.
  repeat split; intros; discriminate.
Qed.

(** C4, at the input [xdim="not_a_dim"], [ydim="hru"] on an array with
    dimensions [time] and [hru]: the selector is neither a dimension nor a
    calendar component, and the run ends with the [AttributeError], not
    with the invalid-dimension failure. *)
Theorem hovmuller_unknown_dimension_run (vals : list value) (s : pyplot) :
  py_in "not_a_dim" (dims (mk_DataArray ["time"; "hru"] vals)) = false
  /\ py_in "not_a_dim" calendar_components = false
  /\ hovmuller (mk_DataArray ["time"; "hru"] vals) "not_a_dim" "hru"
       None None s
     = (inl (AttributeError "'list' object has no attribute 'keys'"), s)
  /\ failure_kind
       (hovmuller (mk_DataArray ["time"; "hru"] vals) "not_a_dim" "hru"
          None None s)
     <> Some InvalidDimension.
Proof.
  rewrite hovmuller_run.
  repeat split; discriminate.
Qed.

(** C5, at the input [how="bogus"] with the two valid selectors [hru] and
    [time]: the method is not one of the five names, and the run ends with
    the [AttributeError], not with the invalid-method failure. *)
Theorem hovmuller_bogus_method_run (vals : list value) (s : pyplot) :
  py_in "hru" (dims (mk_DataArray ["time"; "hru"] vals)) = true
  /\ py_in "time" (dims (mk_DataArray ["time"; "hru"] vals)) = true
  /\ how_in (Some "bogus") method_names = false
  /\ hovmuller (mk_DataArray ["time"; "hru"] vals) "hru" "time"
       (Some (Some "bogus")) None s
     = (inl (AttributeError "'list' object has no attribute 'keys'"), s)
  /\ failure_kind
       (hovmuller (mk_DataArray ["time"; "hru"] vals) "hru" "time"
          (Some (Some "bogus")) None s)
     <> Some InvalidAggregationMethod.
Proof.
  rewrite hovmuller_run.
  repeat split; discriminate.
Qed.

(** C6, at the input [xdim="month"], [ydim="year"], [how=None]: both
    selectors are calendar components and no method is given, and the run
    ends with the [AttributeError], not with the missing-method failure. *)
Theorem hovmuller_missing_method_run (vals : list value) (s : pyplot) :
  py_in "month" calendar_components = true
  /\ py_in "year" calendar_components = true
  /\ truthy None = false
  /\ hovmuller (mk_DataArray ["time"; "hru"] vals) "month" "year"
       (Some None) None s
     = (inl (AttributeError "'list' object has no attribute 'keys'"), s)
  /\ failure_kind
       (hovmuller (mk_DataArray ["time"; "hru"] vals) "month" "year"
          (Some None) None s)
     <> Some MissingAggregation.
Proof.
  rewrite hovmuller_run.
  repeat split; discriminate.
Qed.

(** C10, at the input [xdim="hru"], [ydim="time"], [how="mean"]: both
    selectors are dimensions and the method is a valid name, and the run
    ends with the [AttributeError]: no grid is computed, no figure is made
    and no axis limit is set. *)
Theorem hovmuller_mean_run (vals : list value) (s : pyplot) :
  py_in "hru" (dims (mk_DataArray ["time"; "hru"] vals)) = true
  /\ py_in "time" (dims (mk_DataArray ["time"; "hru"] vals)) = true
  /\ how_in (Some "mean") method_names = true
  /\ hovmuller (mk_DataArray ["time"; "hru"] vals) "hru" "time"
       (Some (Some "mean")) None s
     = (inl (AttributeError "'list' object has no attribute 'keys'"), s)
  /\ (forall fig_ax : handle * handle,
        fst (hovmuller (mk_DataArray ["time"; "hru"] vals) "hru" "time"
               (Some (Some "mean")) None s)
        <> inr fig_ax)
  /\ calls
       (snd (hovmuller (mk_DataArray ["time"; "hru"] vals) "hru" "time"
               (Some (Some "mean")) None s))
     = calls s.
Proof.
  rewrite hovmuller_run.
  repeat split; intros; discriminate.
Qed.

(** * Further properties of gen_patches *)

Lemma zip_firstn_min {A B : Type} (xs : list A) (ys : list B) :
  zip xs ys
  = zip (firstn (Nat.min (length xs) (length ys)) xs)
      (firstn (Nat.min (length xs) (length ys)) ys).
Proof.
  revert ys.
  induction xs as [|x xs IH]; intros [|y ys]; simpl; auto.
  f_equal. apply IH.
Qed.

Lemma zip_snd_firstn {A B : Type} (xs : list A) (ys : list B) :
  map snd (zip xs ys) = firstn (length xs) ys.
Proof.
  revert ys.
  induction xs as [|x xs IH]; intros [|y ys]; simpl; auto.
  f_equal. apply IH.
Qed.

Lemma zip_In {A B : Type} (xs : list A) (ys : list B) (x : A) (y : B) :
  In (x, y) (zip xs ys) -> In x xs /\ In y ys.
Proof.
  revert ys.
  induction xs as [|x' xs IH]; intros [|y' ys] Hin; simpl in *;
    try contradiction.
  destruct Hin as [Heq | Hin].
  - injection Heq as -> ->. auto.
  - apply IH in Hin. tauto.
Qed.

(** The rows the loop visits contribute through their parts only. *)
Lemma rows_by_parts (L : Q) (vs : list value) :
  forall gs gs' : list Geometry,
    map parts gs = map parts gs' ->
    flat_map (row_patches L) (zip vs gs) = flat_map (row_patches L) (zip vs gs')
    /\ flat_map row_vals (zip vs gs) = flat_map row_vals (zip vs gs').
Proof.
  induction vs as [|v vs IH]; intros [|g gs] [|g' gs'] Hparts;
    simpl in *; try discriminate; auto.
  injection Hparts as Hg Hrest.
  destruct (IH gs gs' Hrest) as [IHp IHv].
  unfold row_patches, row_vals in *. simpl.
  rewrite Hg, IHp, IHv. auto.
Qed.

(** Rows beyond the shorter of the two inputs are never read: the
    collection is the one built from the first [min] values and the first
    [min] geometries. *)
Theorem gen_patches_ignores_unpaired_rows
    (data_array : DataArray) (geodf : GeoDataFrame)
    (simplify_level : option Q) :
  gen_patches data_array geodf simplify_level
  = gen_patches
      (mk_DataArray (dims data_array)
         (firstn (Nat.min (length (values data_array))
                    (length (geometry geodf)))
            (values data_array)))
      (mk_GeoDataFrame
         (firstn (Nat.min (length (values data_array))
                    (length (geometry geodf)))
            (geometry geodf))
         (crs geodf))
      simplify_level.
Proof.
  rewrite !gen_patches_closed_form. simpl.
  now rewrite <- zip_firstn_min.
Qed.

(** The number of shapes is the total number of parts of the geometries
    that have a value to go with. *)
Theorem gen_patches_shape_count
    (data_array : DataArray) (geodf : GeoDataFrame)
    (simplify_level : option Q) :
  length (pc_patches (gen_patches data_array geodf simplify_level))
  = list_sum
      (map (fun shp => length (parts shp))
         (firstn (length (values data_array)) (geometry geodf))).
Proof.
  rewrite gen_patches_closed_form. simpl.
  rewrite <- zip_snd_firstn, map_map.
  induction (zip (values data_array) (geometry geodf)) as [|row rows IH];
    simpl; auto.
  rewrite length_app, IH. f_equal.
  unfold row_patches. apply length_map.
Qed.

(** Two aligned batches of rows, processed in one call, give the shapes
    and the values of the first batch followed by those of the second. *)
Theorem gen_patches_app
    (ds : list string) (c : option crs_params)
    (vs1 vs2 : list value) (gs1 gs2 : list Geometry)
    (simplify_level : option Q) :
  length vs1 = length gs1 ->
  pc_patches
    (gen_patches (mk_DataArray ds (vs1 ++ vs2))
       (mk_GeoDataFrame (gs1 ++ gs2) c) simplify_level)
  = pc_patches
      (gen_patches (mk_DataArray ds vs1) (mk_GeoDataFrame gs1 c)
         simplify_level)
    ++ pc_patches
         (gen_patches (mk_DataArray ds vs2) (mk_GeoDataFrame gs2 c)
            simplify_level)
  /\ exists a1 a2 : list value,
       pc_array
         (gen_patches (mk_DataArray ds vs1) (mk_GeoDataFrame gs1 c)
            simplify_level)
       = Some a1
       /\ pc_array
            (gen_patches (mk_DataArray ds vs2) (mk_GeoDataFrame gs2 c)
               simplify_level)
          = Some a2
       /\ pc_array
            (gen_patches (mk_DataArray ds (vs1 ++ vs2))
               (mk_GeoDataFrame (gs1 ++ gs2) c) simplify_level)
          = Some (a1 ++ a2).
Proof.
  intro Hlen.
  rewrite !gen_patches_closed_form. simpl.
  rewrite (zip_app vs1 vs2 gs1 gs2 Hlen), !flat_map_app.
  split; [reflexivity |].
  eexists; eexists. repeat split.
Qed.

(** A multi-part geometry with no part leaves no trace: neither a shape
    nor its value reaches the collection, as if the row were absent. *)
Theorem gen_patches_empty_multipolygon
    (ds : list string) (c : option crs_params)
    (vs1 vs2 : list value) (val : value) (gs1 gs2 : list Geometry)
    (simplify_level : option Q) :
  length vs1 = length gs1 ->
  gen_patches (mk_DataArray ds (vs1 ++ val :: vs2))
    (mk_GeoDataFrame (gs1 ++ MultiPolygon [] :: gs2) c) simplify_level
  = gen_patches (mk_DataArray ds (vs1 ++ vs2))
      (mk_GeoDataFrame (gs1 ++ gs2) c) simplify_level.
Proof.
  intro Hlen.
  rewrite !gen_patches_closed_form. simpl.
  rewrite (zip_app vs1 (val :: vs2) gs1 (MultiPolygon [] :: gs2) Hlen).
  rewrite (zip_app vs1 vs2 gs1 gs2 Hlen).
  simpl. rewrite !flat_map_app. reflexivity.
Qed.

(** Nothing is made up: every value of the array is one of the input
    values, and every shape is the patch of a part of a geometry of the
    table. *)
Theorem gen_patches_from_input
    (data_array : DataArray) (geodf : GeoDataFrame)
    (simplify_level : option Q) :
  (exists A : list value,
     pc_array (gen_patches data_array geodf simplify_level) = Some A
     /\ incl A (values data_array))
  /\ Forall
       (fun patch =>
          exists shp p,
            In shp (geometry geodf) /\ In p (parts shp)
            /\ patch = patch_of (kwarg simplify_level 500%Q) p)
       (pc_patches (gen_patches data_array geodf simplify_level)).
Proof.
  rewrite gen_patches_closed_form. simpl. split.
  - eexists. split; [reflexivity |].
    intros v Hv. apply in_flat_map in Hv.
    destruct Hv as [[v' shp] [Hrow Hv]].
    apply zip_In in Hrow. unfold row_vals in Hv. simpl in Hv.
    apply repeat_spec in Hv. subst v. tauto.
  - apply Forall_forall. intros patch Hpatch.
    apply in_flat_map in Hpatch.
    destruct Hpatch as [[v shp] [Hrow Hpatch]].
    apply zip_In in Hrow. unfold row_patches in Hpatch. simpl in Hpatch.
    apply in_map_iff in Hpatch. destruct Hpatch as [p [Hp Hin]].
    exists shp, p. intuition.
Qed.

(** Only the parts of the geometries count: two tables whose geometries
    have the same parts, row by row, give the same collection (a multi-part
    geometry with one part is treated as that part on its own). *)
Theorem gen_patches_parts_only
    (data_array : DataArray) (geodf geodf' : GeoDataFrame)
    (simplify_level : option Q) :
  map parts (geometry geodf) = map parts (geometry geodf') ->
  gen_patches data_array geodf simplify_level
  = gen_patches data_array geodf' simplify_level.
Proof.
  intro Hparts.
  rewrite !gen_patches_closed_form.
  destruct (rows_by_parts (kwarg simplify_level 500%Q) (values data_array)
              _ _ Hparts) as [Hp Hv].
  now rewrite Hp, Hv.
Qed.

(** With no value or no geometry the collection is empty, and its value
    array is set to the empty array. *)
Theorem gen_patches_empty
    (data_array : DataArray) (geodf : GeoDataFrame)
    (simplify_level : option Q) :
  values data_array = [] \/ geometry geodf = [] ->
  gen_patches data_array geodf simplify_level
  = mk_PatchCollection [] 0%float None 1%float (Some []).
Proof.
  intros [Hv | Hg]; rewrite gen_patches_closed_form.
  - now rewrite Hv.
  - rewrite Hg. now destruct (values data_array).
Qed.

(** * Further properties of add_map_features *)

(** The number of layers a call asks for, omitted flags counted at their
    defaults. *)
Definition flag_count (states_provinces country_borders land ocean lake
                         : option bool) : nat :=
  b2n (kwarg states_provinces true) + b2n (kwarg country_borders true)
  + b2n (kwarg land true) + b2n (kwarg ocean true) + b2n (kwarg lake false).

Definition layer_scale (c : call) : option string :=
  match c with
  | call_add_feature _ feature _ => Some (nef_scale feature)
  | _ => None
  end.

Lemma layers_for_elsewhere (ax ax' : handle) (sp cb l o lk : bool) :
  ax' <> ax ->
  filter (is_layer_on ax') (layers_for ax sp cb l o lk) = [].
Proof.
  intro Hneq. apply Nat.eqb_neq in Hneq.
  unfold layers_for.
  destruct sp, cb, l, o, lk; simpl; rewrite ?Hneq; reflexivity.
Qed.

Lemma layer_count_after_layers (ax : handle) (sp cb l o lk : bool)
    (s : pyplot) :
  layer_count ax (after_calls s (layers_for ax sp cb l o lk))
  = layer_count ax s + (b2n sp + b2n cb + b2n l + b2n o + b2n lk).
Proof.
  unfold layer_count. simpl.
  rewrite filter_app, length_app, layers_for_all_on.
  destruct sp, cb, l, o, lk; reflexivity.
Qed.

(** Decorating one axis leaves every other axis with the layers it had,
    and creates no figure and no axis. *)
Theorem add_map_features_other_axes (ax ax' : handle)
    (states_provinces country_borders land ocean lake : option bool)
    (s : pyplot) :
  ax' <> ax ->
  layer_count ax'
    (snd (add_map_features ax states_provinces country_borders land ocean
            lake s))
  = layer_count ax' s
  /\ next_handle
       (snd (add_map_features ax states_provinces country_borders land ocean
               lake s))
     = next_handle s.
Proof.
  intro Hneq. rewrite add_map_features_run. simpl.
  split; [| reflexivity].
  unfold layer_count. simpl.
  rewrite filter_app, length_app, (layers_for_elsewhere ax ax'); auto.
Qed.

(** The decorator does not look at what the axis already shows: a second
    call adds its layers again, on top of those of the first. *)
Theorem add_map_features_accumulates (ax : handle)
    (sp cb l o lk sp' cb' l' o' lk' : option bool) (s : pyplot) :
  fst ((add_map_features ax sp cb l o lk ;;;
        add_map_features ax sp' cb' l' o' lk') s)
  = inr tt
  /\ layer_count ax
       (snd ((add_map_features ax sp cb l o lk ;;;
              add_map_features ax sp' cb' l' o' lk') s))
     = layer_count ax s + flag_count sp cb l o lk
       + flag_count sp' cb' l' o' lk'.
Proof.
  erewrite bind_run_ok; [| apply add_map_features_run].
  rewrite add_map_features_run. simpl.
  split; [reflexivity |].
  rewrite !layer_count_after_layers. unfold flag_count. lia.
Qed.

(** Whatever the flags, every layer is drawn from the 50m data set. *)
Theorem add_map_features_scale (ax : handle)
    (states_provinces country_borders land ocean lake : option bool)
    (s : pyplot) :
  exists added : list call,
    calls (snd (add_map_features ax states_provinces country_borders land
                  ocean lake s))
    = calls s ++ added
    /\ length added
       = flag_count states_provinces country_borders land ocean lake
    /\ Forall (fun c => layer_scale c = Some "50m") added.
Proof.
  rewrite add_map_features_run. simpl.
  eexists. split; [reflexivity |].
  unfold flag_count, layers_for.
  destruct (kwarg states_provinces true), (kwarg country_borders true),
    (kwarg land true), (kwarg ocean true), (kwarg lake false);
    simpl; split; try reflexivity; repeat constructor.
Qed.

(** * Further properties of spatial *)

(** The collections a list of calls attaches, in order. *)
Definition collections_of (cs : list call) : list PatchCollection :=
  flat_map
    (fun c =>
       match c with
       | call_add_collection _ collection => [collection]
       | _ => []
       end)
    cs.

Lemma spatial_run (data_array : DataArray) (geodf : GeoDataFrame)
    (simplify_level : option Q) (proj : option projection) (s : pyplot) :
  spatial data_array geodf simplify_level proj s
  = (inr (next_handle s, S (next_handle s)),
     after_calls
       {| next_handle := S (S (next_handle s)); calls := calls s |}
       ([call_subplots 1 1 (Some (kwarg proj ccrs_Mercator))
           (next_handle s) (S (next_handle s));
         call_add_collection (S (next_handle s))
           (gen_patches data_array
              (to_crs geodf (proj4_params (kwarg proj ccrs_Mercator)))
              (Some (kwarg simplify_level 500%Q)))]
        ++ layers_for (S (next_handle s)) true true true true false
        ++ [call_autoscale_view (S (next_handle s))])).
Proof.
  unfold spatial. cbv beta zeta.
  erewrite bind_run_ok; [| reflexivity].
  cbv beta iota zeta.
  erewrite bind_run_ok; [| apply record_call_run].
  erewrite bind_run_ok; [| apply add_map_features_run].
  erewrite bind_run_ok; [| apply record_call_run].
  unfold ret, after_calls. simpl.
  rewrite <- !app_assoc. reflexivity.
Qed.

(** Two plots made one after the other share nothing: the four handles
    are pairwise distinct, the calls of the first plot are kept as they
    were, and the second plot adds no layer to the axis of the first. *)
Theorem spatial_twice_distinct
    (data_array1 data_array2 : DataArray) (geodf1 geodf2 : GeoDataFrame)
    (level1 level2 : option Q) (proj1 proj2 : option projection)
    (s : pyplot) :
  exists (fig1 ax1 fig2 ax2 : handle) (added : list call),
    fst (spatial data_array1 geodf1 level1 proj1 s) = inr (fig1, ax1)
    /\ fst (spatial data_array2 geodf2 level2 proj2
              (snd (spatial data_array1 geodf1 level1 proj1 s)))
       = inr (fig2, ax2)
    /\ NoDup [fig1; ax1; fig2; ax2]
    /\ calls (snd (spatial data_array2 geodf2 level2 proj2
                     (snd (spatial data_array1 geodf1 level1 proj1 s))))
       = calls (snd (spatial data_array1 geodf1 level1 proj1 s)) ++ added
    /\ filter (is_layer_on ax1) added = [].
Proof.
  rewrite (spatial_run data_array1 geodf1 level1 proj1 s).
  cbn [fst snd]. rewrite spatial_run.
  unfold after_calls. cbn [fst snd calls next_handle].
  do 5 eexists.
  split; [reflexivity |]. split; [reflexivity |].
  split.
  { repeat constructor; simpl; intuition lia. }
  split; [reflexivity |].
  rewrite !filter_app, layers_for_elsewhere by lia.
  reflexivity.
Qed.

(** When reprojecting leaves the table as it is, the one collection the
    plot attaches is the one [gen_patches] builds from the table itself. *)
Theorem spatial_matching_crs (data_array : DataArray) (geodf : GeoDataFrame)
    (simplify_level : option Q) (proj : option projection) (s : pyplot) :
  to_crs geodf (proj4_params (kwarg proj ccrs_Mercator)) = geodf ->
  exists added : list call,
    calls (snd (spatial data_array geodf simplify_level proj s))
    = calls s ++ added
    /\ collections_of added
       = [gen_patches data_array geodf simplify_level].
Proof.
  intro Hcrs. rewrite spatial_run, Hcrs. simpl.
  eexists. split; [reflexivity |].
  reflexivity.
Qed.

(** * The method table of hovmuller *)

(** The membership test of line 103 and the lookup of line 107 agree: the
    lookup finds a reducer exactly when the test lets the name through, so
    a name that passes the test cannot raise [KeyError]. *)
Theorem method_lookup_guarded
    (items : list (string * (GroupBy -> DataArray)))
    (how : option string) (s : pyplot) :
  (exists aggregate : GroupBy -> DataArray,
     getitem (py_dict items) how s = (inr aggregate, s))
  <-> (exists ks : list string,
         keys (py_dict items) s = (inr ks, s) /\ how_in how ks = true).
Proof.
  split.
  - intros [aggregate Hget]. exists (map fst items).
    split; [reflexivity |].
    destruct how as [name |]; simpl in *; [| discriminate].
    induction items as [|[k v] items IH]; simpl in *; [discriminate |].
    rewrite (String.eqb_sym name k) in Hget.
    unfold py_in. simpl.
    destruct (String.eqb k name) eqn:Hk.
    + rewrite String.eqb_sym, Hk. reflexivity.
    + rewrite String.eqb_sym, Hk. simpl. apply IH.
      destruct (dict_get items name); [exact Hget | discriminate].
  - intros [ks [Hkeys Hin]].
    injection Hkeys as <-.
    destruct how as [name |]; simpl in *; [| discriminate].
    induction items as [|[k v] items IH]; simpl in *; [discriminate |].
    unfold py_in in Hin. simpl in Hin.
    destruct (String.eqb name k) eqn:Hk.
    + eexists. reflexivity.
    + simpl in Hin. destruct (IH Hin) as [aggregate Hget].
      exists aggregate. exact Hget.
Qed.

(** * Values and shapes side by side *)

Lemma zip_repeat_map {A B C : Type} (a : A) (f : B -> C) (l : list B) :
  zip (repeat a (length l)) (map f l) = map (fun b => (a, f b)) l.
Proof.
  induction l as [|b l IH]; simpl; auto.
  now rewrite IH.
Qed.

(** The value array runs parallel to the shapes: paired position by
    position, every shape sits next to the value of the row it was made
    from. *)
Theorem gen_patches_values_follow_shapes
    (data_array : DataArray) (geodf : GeoDataFrame)
    (simplify_level : option Q) :
  exists A : list value,
    pc_array (gen_patches data_array geodf simplify_level) = Some A
    /\ zip A (pc_patches (gen_patches data_array geodf simplify_level))
       = flat_map
           (fun row : value * Geometry =>
              map (fun p =>
                     (fst row, patch_of (kwarg simplify_level 500%Q) p))
                (parts (snd row)))
           (zip (values data_array) (geometry geodf)).
Proof.
  rewrite gen_patches_closed_form. simpl.
  eexists. split; [reflexivity |].
  induction (zip (values data_array) (geometry geodf)) as [|row rows IH];
    simpl; auto.
  rewrite zip_app.
  - rewrite IH. f_equal. apply zip_repeat_map.
  - unfold row_vals, row_patches. now rewrite repeat_length, length_map.
Qed.

End Spatial.

Arguments mk_shapely_Polygon {coord} exterior interiors.
Arguments exterior {coord} s.
Arguments interiors {coord} s.
Arguments SinglePolygon {coord} p.
Arguments MultiPolygon {coord} geoms.
Arguments mk_DataArray {value} dims values.
Arguments mk_GeoDataFrame {coord crs_params} geometry crs.
Arguments mk_Polygon {coord} xy.
Arguments gen_patches {coord value} simplify {crs_params}
  data_array geodf simplify_level.
Arguments patch_of {coord} simplify simplify_level p.
Arguments row_patches {coord value} simplify simplify_level row.
Arguments row_vals {coord value} row.
Arguments parts {coord} shp.
Arguments dims {value} d.
Arguments values {value} d.
Arguments geometry {coord crs_params} g.
Arguments xy {coord} p.
Arguments pc_patches {coord value} p.
Arguments pc_linewidth {coord value} p.
Arguments pc_edgecolor {coord value} p.
Arguments pc_alpha {coord value} p.
Arguments pc_array {coord value} p.
Arguments mk_pyplot {coord value projection MaskedArray} next_handle calls.
Arguments next_handle {coord value projection MaskedArray} p.
Arguments calls {coord value projection MaskedArray} p.
Arguments spatial {coord value} simplify {crs_params projection}
  proj4_params ccrs_Mercator to_crs {MaskedArray}
  data_array geodf simplify_level proj _.
Arguments hovmuller {coord value projection GroupBy MaskedArray}
  groupby gb_apply da_getitem da_min da_max
  gb_mean gb_max gb_min gb_median gb_std masked_invalid
  data_array xdim ydim how cmap _.

(** * Holes and style of the collection *)

(** A polygon without its interior rings. *)
Definition drop_holes {coord : Type} (p : shapely_Polygon coord)
  : shapely_Polygon coord :=
  mk_shapely_Polygon (exterior p) [].

Lemma row_patches_drop_holes {coord value : Type}
    (simplify : shapely_Polygon coord -> Q -> shapely_Polygon coord)
    (L : Q) (row : value * Geometry coord) :
  row_patches (fun p tol => drop_holes (simplify p tol)) L row
  = row_patches simplify L row.
Proof.
  unfold row_patches. apply map_ext. intro p. reflexivity.
Qed.

Lemma row_lengths_agree {coord value : Type}
    (simplify : shapely_Polygon coord -> Q -> shapely_Polygon coord)
    (L : Q) (rows : list (value * Geometry coord)) :
  length (flat_map row_vals rows)
  = length (flat_map (row_patches simplify L) rows).
Proof.
  induction rows as [|row rows IH]; simpl; auto.
  rewrite !length_app, IH. f_equal.
  unfold row_vals, row_patches. now rewrite repeat_length, length_map.
Qed.

(** C7. Every shape of the collection is the exterior ring of
    [simplify] applied to one input polygon with the one tolerance of the
    call; the collection has line width 0, no edge colour and alpha 1; its
    value array is set and is as long as its list of shapes; and the
    interior rings of the simplified polygons play no part: erasing them
    leaves the collection unchanged. *)
Theorem gen_patches_outer_boundary_and_style {coord value crs_params : Type}
    (simplify : shapely_Polygon coord -> Q -> shapely_Polygon coord)
    (data_array : DataArray value) (geodf : GeoDataFrame coord crs_params)
    (simplify_level : option Q) :
  pc_patches (gen_patches simplify data_array geodf simplify_level)
  = flat_map
      (fun row : value * Geometry coord =>
         map (fun p => mk_Polygon
                         (exterior (simplify p (kwarg simplify_level 500%Q))))
           (parts (snd row)))
      (zip (values data_array) (geometry geodf))
  /\ pc_linewidth (gen_patches simplify data_array geodf simplify_level)
     = 0%float
  /\ pc_edgecolor (gen_patches simplify data_array geodf simplify_level)
     = None
  /\ pc_alpha (gen_patches simplify data_array geodf simplify_level)
     = 1%float
  /\ (exists A : list value,
        pc_array (gen_patches simplify data_array geodf simplify_level)
        = Some A
        /\ length A
           = length
               (pc_patches
                  (gen_patches simplify data_array geodf simplify_level)))
  /\ gen_patches (fun p tol => drop_holes (simplify p tol))
       data_array geodf simplify_level
     = gen_patches simplify data_array geodf simplify_level.
Proof.
  rewrite !gen_patches_closed_form. simpl.
  split; [reflexivity |].
  do 3 (split; [reflexivity |]).
  split.
  - eexists. split; [reflexivity |]. apply row_lengths_agree.
  - rewrite (flat_map_ext _ _
               (row_patches_drop_holes simplify (kwarg simplify_level 500%Q))).
    reflexivity.
Qed.

(** * A worked instance *)

(** Integer vertices, integer values, and a simplification that removes
    no vertex. *)
Definition vertex : Type := (Z * Z)%type.

Definition keep_vertices (p : shapely_Polygon vertex) (tolerance : Q)
  : shapely_Polygon vertex := p.

(** A square with a hole, a triangle and a thin strip. *)
Definition square : shapely_Polygon vertex :=
  mk_shapely_Polygon
    [(0, 0); (4, 0); (4, 4); (0, 4); (0, 0)]%Z
    [[(1, 1); (2, 1); (2, 2); (1, 1)]%Z].

Definition triangle : shapely_Polygon vertex :=
  mk_shapely_Polygon [(5, 0); (9, 0); (7, 3); (5, 0)]%Z [].

Definition strip : shapely_Polygon vertex :=
  mk_shapely_Polygon [(0, 6); (9, 6); (9, 7); (0, 7); (0, 6)]%Z [].

Definition two_values : DataArray Z := mk_DataArray ["hru"] [10; 20]%Z.

Definition two_polygons : GeoDataFrame vertex unit :=
  mk_GeoDataFrame [SinglePolygon square; SinglePolygon triangle] None.

Definition three_values : DataArray Z := mk_DataArray ["hru"] [10; 20; 30]%Z.

Definition mixed_table : GeoDataFrame vertex unit :=
  mk_GeoDataFrame
    [SinglePolygon square; MultiPolygon [triangle; strip];
     SinglePolygon triangle]
    None.

(** The multi-part row yields two shapes between those of its neighbours,
    both with the row's value 20; the hole of the square is gone. *)
Example gen_patches_mixed_table :
  gen_patches keep_vertices three_values mixed_table None
  = {| pc_patches :=
         [mk_Polygon [(0, 0); (4, 0); (4, 4); (0, 4); (0, 0)]%Z;
          mk_Polygon [(5, 0); (9, 0); (7, 3); (5, 0)]%Z;
          mk_Polygon [(0, 6); (9, 6); (9, 7); (0, 7); (0, 6)]%Z;
          mk_Polygon [(5, 0); (9, 0); (7, 3); (5, 0)]%Z];
       pc_linewidth := 0%float;
       pc_edgecolor := None;
       pc_alpha := 1%float;
       pc_array := Some [10; 20; 20; 30]%Z |}.
Proof. reflexivity. Qed.

(** A value sequence longer than the table: the surplus value is ignored. *)
Example gen_patches_surplus_value :
  pc_array (gen_patches keep_vertices three_values two_polygons None)
  = Some [10; 20]%Z.
Proof. reflexivity. Qed.

(** The single-polygon property at the table of the square and the
    triangle. *)
Lemma gen_patches_single_polygons_witness :
  geometry two_polygons = map SinglePolygon [square; triangle]
  /\ length (values two_values)
     = length (geometry two_polygons)
  /\ (length
        (pc_patches (gen_patches keep_vertices two_values two_polygons None))
      = length (geometry two_polygons)
      /\ pc_patches (gen_patches keep_vertices two_values two_polygons None)
         = map (patch_of keep_vertices 500%Q) [square; triangle]
      /\ (forall i : nat,
            nth_error
              (pc_patches
                 (gen_patches keep_vertices two_values two_polygons None)) i
            = option_map (patch_of keep_vertices 500%Q)
                (nth_error [square; triangle] i))
      /\ pc_array (gen_patches keep_vertices two_values two_polygons None)
         = Some (values two_values)).
Proof.
  split; [reflexivity | split; [reflexivity |]].
  exact (gen_patches_single_polygons vertex Z keep_vertices unit
           two_values two_polygons None [square; triangle]
           eq_refl eq_refl).
Defined.

(** The multi-part property at the second row of [mixed_table]. *)
Lemma gen_patches_multipolygon_in_place_witness :
  length [10%Z] = length [SinglePolygon square]
  /\ pc_patches (gen_patches keep_vertices three_values mixed_table None)
     = pc_patches
         (gen_patches keep_vertices (mk_DataArray ["hru"] [10%Z])
            (mk_GeoDataFrame [SinglePolygon square] (@None unit)) None)
       ++ map (patch_of keep_vertices 500%Q) [triangle; strip]
       ++ pc_patches
            (gen_patches keep_vertices (mk_DataArray ["hru"] [30%Z])
               (mk_GeoDataFrame [SinglePolygon triangle] (@None unit)) None)
  /\ length (map (patch_of keep_vertices 500%Q) [triangle; strip])
     = 2.
Proof.
  split; [reflexivity |].
  pose proof (gen_patches_multipolygon_in_place vertex Z keep_vertices unit
                ["hru"] None [10%Z] [30%Z] 20%Z
                [SinglePolygon square] [SinglePolygon triangle]
                [triangle; strip] None eq_refl) as H.
  cbv zeta in H.
  split; [exact (proj1 H) | exact (proj1 (proj2 H))].
Defined.

(** Stand-ins for the grouping operations, to run [hovmuller] on the
    instance: whatever they are, the run never reaches them. *)
Example hovmuller_month_by_year :
  hovmuller (coord := vertex) (projection := unit) (MaskedArray := list Z)
    (fun d _ => d) (fun g f => f g) (fun d _ => d) (fun d => d) (fun d => d)
    (fun g => g) (fun g => g) (fun g => g) (fun g => g) (fun g => g)
    (fun vals => vals)
    (mk_DataArray ["time"; "hru"] [1; 2; 3]%Z) "month" "year"
    (Some (Some "mean")) None
    {| next_handle := 0; calls := [] |}
  = (inl (AttributeError "'list' object has no attribute 'keys'"),
     {| next_handle := 0; calls := [] |}).
Proof. reflexivity. Qed.

(** [spatial] on the instance, with a reprojection that leaves the table
    as it is: seven calls, on a fresh axis. *)
Example spatial_on_instance :
  let run :=
    spatial (MaskedArray := list Z)
      keep_vertices (fun _ : unit => tt) tt (fun g _ => g)
      three_values mixed_table None None
      {| next_handle := 0; calls := [] |} in
  fst run = inr (0, 1)
  /\ length (calls (snd run)) = 7.
Proof. split; reflexivity. Qed.

(** * The further properties on the instance *)

(** Two aligned batches: the square alone, then the multi-part row and
    the triangle. *)
Lemma gen_patches_app_witness :
  length [10%Z] = length [SinglePolygon square]
  /\ pc_patches (gen_patches keep_vertices three_values mixed_table None)
     = pc_patches
         (gen_patches keep_vertices (mk_DataArray ["hru"] [10%Z])
            (mk_GeoDataFrame [SinglePolygon square] (@None unit)) None)
       ++ pc_patches
            (gen_patches keep_vertices (mk_DataArray ["hru"] [20; 30]%Z)
               (mk_GeoDataFrame
                  [MultiPolygon [triangle; strip]; SinglePolygon triangle]
                  (@None unit))
               None).
Proof.
  split; [reflexivity |].
  exact (proj1 (gen_patches_app vertex Z keep_vertices unit
                  ["hru"] None [10%Z] [20; 30]%Z
                  [SinglePolygon square]
                  [MultiPolygon [triangle; strip]; SinglePolygon triangle]
                  None eq_refl)).
Defined.

(** A multi-part geometry without parts between the square and the
    triangle. *)
Lemma gen_patches_empty_multipolygon_witness :
  length [10%Z] = length [SinglePolygon square]
  /\ gen_patches keep_vertices (mk_DataArray ["hru"] [10; 20; 30]%Z)
       (mk_GeoDataFrame
          [SinglePolygon square; MultiPolygon []; SinglePolygon triangle]
          (@None unit))
       None
     = gen_patches keep_vertices (mk_DataArray ["hru"] [10; 30]%Z)
         (mk_GeoDataFrame [SinglePolygon square; SinglePolygon triangle]
            (@None unit))
         None.
Proof.
  split; [reflexivity |].
  exact (gen_patches_empty_multipolygon vertex Z keep_vertices unit
           ["hru"] None [10%Z] [30%Z] 20%Z
           [SinglePolygon square] [SinglePolygon triangle] None eq_refl).
Defined.

(** The triangle as a geometry of its own and as the only part of a
    multi-part geometry. *)
Lemma gen_patches_parts_only_witness :
  map parts (geometry two_polygons)
  = map parts
      (geometry
         (mk_GeoDataFrame [SinglePolygon square; MultiPolygon [triangle]]
            (@None unit)))
  /\ gen_patches keep_vertices two_values two_polygons None
     = gen_patches keep_vertices two_values
         (mk_GeoDataFrame [SinglePolygon square; MultiPolygon [triangle]]
            (@None unit))
         None.
Proof.
  split; [reflexivity |].
  exact (gen_patches_parts_only vertex Z keep_vertices unit two_values
           two_polygons
           (mk_GeoDataFrame [SinglePolygon square; MultiPolygon [triangle]]
              None)
           None eq_refl).
Defined.

(** Three values and an empty table. *)
Lemma gen_patches_empty_witness :
  (values three_values = []
   \/ geometry (mk_GeoDataFrame (@nil (Geometry vertex)) (@None unit)) = [])
  /\ gen_patches keep_vertices three_values
       (mk_GeoDataFrame [] (@None unit)) None
     = mk_PatchCollection vertex Z [] 0%float None 1%float (Some []).
Proof.
  split; [right; reflexivity |].
  exact (gen_patches_empty vertex Z keep_vertices unit three_values
           (mk_GeoDataFrame [] None) None (or_intror eq_refl)).
Defined.

(** Axis 3 decorated by default while axis 1 already has one layer. *)
Lemma add_map_features_other_axes_witness :
  1 <> 3
  /\ layer_count vertex Z unit (list Z) 1
       (snd (add_map_features vertex Z unit (list Z) 3
               None None None None None
               {| next_handle := 4;
                  calls :=
                    [call_add_feature vertex Z unit (list Z) 1
                       (mk_NaturalEarthFeature "physical" "land" "50m" "gray")
                       (mk_feature_kwargs None (Some "lightgray") None
                          (Some 0%Z) None)] |}))
     = 1.
Proof.
  split; [discriminate |].
  refine (proj1 (add_map_features_other_axes vertex Z unit (list Z) 3 1
                  None None None None None
                  {| next_handle := 4;
                     calls :=
                       [call_add_feature vertex Z unit (list Z) 1
                          (mk_NaturalEarthFeature "physical" "land" "50m"
                             "gray")
                          (mk_feature_kwargs None (Some "lightgray") None
                             (Some 0%Z) None)] |}
                  _)).
  discriminate.
Defined.

(** A reprojection that returns the table it is given. *)
Lemma spatial_matching_crs_witness :
  (fun (g : GeoDataFrame vertex unit) (_ : unit) => g) mixed_table tt
  = mixed_table
  /\ exists added : list (call vertex Z unit (list Z)),
       calls
         (snd (spatial keep_vertices (fun _ : unit => tt) tt (fun g _ => g)
                 three_values mixed_table None None
                 {| next_handle := 0; calls := [] |}))
       = [] ++ added
       /\ collections_of vertex Z unit (list Z) added
          = [gen_patches keep_vertices three_values mixed_table None].
Proof.
  split; [reflexivity |].
  exact (spatial_matching_crs vertex Z keep_vertices unit unit
           (fun _ => tt) tt (fun g _ => g) (list Z)
           three_values mixed_table None None
           {| next_handle := 0; calls := [] |} eq_refl).
Defined.
